(** * The complex DOCX template generator
    ([src-tauri/resources/generate_complex_template.py])

    The generator is a top-level script: it creates one python-docx
    [Document], appends two headings and eight paragraphs to it and sets
    formatting on the runs through the proxies returned by [add_heading],
    [add_paragraph] and [add_run].  The document is modelled as the list
    of its body paragraphs; a proxy is an index into that list (and, for
    a run, a second index into the paragraph's runs); a statement of the
    script is a function from documents to an optional result and a new
    document, [None] standing for a raised exception. *)

From stdpp Require Import base list strings.
From Stdlib Require Import Ascii ZArith Lia DecimalString.

Open Scope Z_scope.

(** ** Python strings

    A Python [str] is a sequence of code points; the source file is
    UTF-8.  A string is kept as its UTF-8 bytes and [py_chars] cuts it
    into its characters: a byte [10xxxxxx] continues the character begun
    before it. *)

Definition is_continuation (a : ascii) : bool :=
  let n := Z.of_nat (nat_of_ascii a) in (0x80 <=? n) && (n <? 0xC0).

Definition starts_with_continuation (s : string) : bool :=
  match s with
  | EmptyString => false
  | String a _ => is_continuation a
  end.

Fixpoint py_chars (s : string) : list string :=
  match s with
  | EmptyString => []
  | String a rest =>
      if starts_with_continuation rest then
        match py_chars rest with
        | c :: cs => String a c :: cs
        | [] => [String a EmptyString]
        end
      else String a EmptyString :: py_chars rest
  end.

(** [ord(c)] of a character given by its UTF-8 bytes; [None] when the
    bytes are not the encoding of one code point. *)
Definition utf8_bytes (c : string) : list Z :=
  (fun a => Z.of_nat (nat_of_ascii a)) <$> String.list_ascii_of_string c.

Definition utf8_tail (b : Z) : option Z :=
  if (0x80 <=? b) && (b <? 0xC0) then Some (b - 0x80) else None.

Definition py_ord (c : string) : option Z :=
  match utf8_bytes c with
  | [b0] => if b0 <? 0x80 then Some b0 else None
  | [b0; b1] =>
      match utf8_tail b1 with
      | Some t1 =>
          let cp := (b0 - 0xC0) * 0x40 + t1 in
          if (0xC0 <=? b0) && (b0 <? 0xE0) && (0x80 <=? cp) then Some cp else None
      | None => None
      end
  | [b0; b1; b2] =>
      match utf8_tail b1, utf8_tail b2 with
      | Some t1, Some t2 =>
          let cp := (b0 - 0xE0) * 0x1000 + t1 * 0x40 + t2 in
          if (0xE0 <=? b0) && (b0 <? 0xF0) && (0x800 <=? cp) then Some cp else None
      | _, _ => None
      end
  | [b0; b1; b2; b3] =>
      match utf8_tail b1, utf8_tail b2, utf8_tail b3 with
      | Some t1, Some t2, Some t3 =>
          let cp := (b0 - 0xF0) * 0x40000 + t1 * 0x1000 + t2 * 0x40 + t3 in
          if (0xF0 <=? b0) && (b0 <? 0xF8) && (0x10000 <=? cp) && (cp <=? 0x10FFFF)
          then Some cp else None
      | _, _, _ => None
      end
  | _ => None
  end.

(** The characters a python-docx run keeps as they are: the characters
    of XML 1.0 other than tab, line feed and carriage return.  Those
    three are stored as tab and break elements, a carriage return being
    read back as a line feed; on any other character the library
    raises [ValueError]. *)
Definition xml_text_char (cp : Z) : bool :=
  ((0x20 <=? cp) && (cp <=? 0xD7FF)) ||
  ((0xE000 <=? cp) && (cp <=? 0xFFFD)) ||
  ((0x10000 <=? cp) && (cp <=? 0x10FFFF)).

(** A text python-docx stores and reads back unchanged. *)
Definition stored_verbatim (s : string) : bool :=
  forallb (fun c => from_option xml_text_char false (py_ord c)) (py_chars s).

(** [''.join(l)] *)
Definition py_join (l : list string) : string := foldr String.append EmptyString l.

(** [enumerate(l)] *)
Definition enumerate {A} (l : list A) : list (nat * A) := imap pair l.

(** ** The python-docx objects the script touches *)

Inductive WD_ALIGN_PARAGRAPH := LEFT | CENTER | RIGHT.

(** [RGBColor(r, g, b)] *)
Record RGBColor := RGB { rgb_r : Z; rgb_g : Z; rgb_b : Z }.

(** [RGBColor] raises unless every component is in 0..255. *)
Definition valid_rgb (c : RGBColor) : bool :=
  forallb (fun n => (0 <=? n) && (n <=? 255)) [rgb_r c; rgb_g c; rgb_b c].

(** [Pt(points)] is a length in English Metric Units. *)
Definition Pt (points : Z) : Z := points * 12700.

(** A font attribute that was never assigned is [None]: the run then
    takes the value from its paragraph style. *)
Record Font := mkFont {
  font_color_rgb : option RGBColor;
  font_bold : option bool;
  font_italic : option bool;
  font_underline : option bool;
  font_size : option Z
}.

Record Run := mkRun { run_text : string; run_font : Font }.

(** The style [add_heading] gives a paragraph; [add_paragraph()] gives
    none. *)
Inductive Style := Normal | Title | Heading (level : Z).

Record Paragraph := mkParagraph {
  par_style : Style;
  par_alignment : option WD_ALIGN_PARAGRAPH;
  par_runs : list Run
}.

Abbreviation Document := (list Paragraph).

#[global] Instance WD_ALIGN_PARAGRAPH_eq_dec : EqDecision WD_ALIGN_PARAGRAPH.
Proof. solve_decision. Defined.
#[global] Instance RGBColor_eq_dec : EqDecision RGBColor.
Proof. solve_decision. Defined.
#[global] Instance Font_eq_dec : EqDecision Font.
Proof. solve_decision. Defined.
#[global] Instance Run_eq_dec : EqDecision Run.
Proof. solve_decision. Defined.
#[global] Instance Style_eq_dec : EqDecision Style.
Proof. solve_decision. Defined.
#[global] Instance Paragraph_eq_dec : EqDecision Paragraph.
Proof. solve_decision. Defined.

Definition no_font : Font := mkFont None None None None None.

Definition with_color (c : RGBColor) (f : Font) : Font :=
  mkFont (Some c) (font_bold f) (font_italic f) (font_underline f) (font_size f).
Definition with_bold (b : bool) (f : Font) : Font :=
  mkFont (font_color_rgb f) (Some b) (font_italic f) (font_underline f) (font_size f).
Definition with_italic (b : bool) (f : Font) : Font :=
  mkFont (font_color_rgb f) (font_bold f) (Some b) (font_underline f) (font_size f).
Definition with_underline (b : bool) (f : Font) : Font :=
  mkFont (font_color_rgb f) (font_bold f) (font_italic f) (Some b) (font_size f).
Definition with_size (n : Z) (f : Font) : Font :=
  mkFont (font_color_rgb f) (font_bold f) (font_italic f) (font_underline f) (Some n).

Definition map_font (g : Font -> Font) (r : Run) : Run :=
  mkRun (run_text r) (g (run_font r)).
Definition map_runs (g : list Run -> list Run) (p : Paragraph) : Paragraph :=
  mkParagraph (par_style p) (par_alignment p) (g (par_runs p)).
Definition with_alignment (a : WD_ALIGN_PARAGRAPH) (p : Paragraph) : Paragraph :=
  mkParagraph (par_style p) (Some a) (par_runs p).

(** [paragraph.text] *)
Definition par_text (p : Paragraph) : string := py_join (run_text <$> par_runs p).

(** ** Script statements *)

Definition Script (A : Type) : Type := Document -> option (A * Document).

Definition ret {A} (a : A) : Script A := fun d => Some (a, d).
Definition bind {A B} (m : Script A) (k : A -> Script B) : Script B :=
  fun d => match m d with
           | Some (a, d') => k a d'
           | None => None
           end.
Definition raise {A} : Script A := fun _ => None.

Declare Scope script_scope.
Delimit Scope script_scope with script.
Bind Scope script_scope with Script.
Notation "x <- m ;; k" := (bind m (fun x => k))
  (at level 100, m at next level, k at level 200, right associativity) : script_scope.
Notation "m ;; k" := (bind m (fun _ => k))
  (at level 100, k at level 200, right associativity) : script_scope.

(** [for x in l: body] *)
Fixpoint for_each {A} (l : list A) (body : A -> Script unit) : Script unit :=
  match l with
  | [] => ret tt
  | x :: l' => bind (body x) (fun _ => for_each l' body)
  end.

Abbreviation ParagraphRef := nat.
Abbreviation RunRef := (nat * nat)%type.

(** [Document()]: the default template has an empty body. *)
Definition Document_new : Document := [].

(** [doc.add_paragraph(text, style)]: the run is added only for a
    non-empty text.  The text is kept as it is given, which is what the
    library does on a [stored_verbatim] text. *)
Definition add_styled_paragraph (txt : string) (st : Style) : Script ParagraphRef :=
  fun d =>
    let rs := if decide (txt = EmptyString) then [] else [mkRun txt no_font] in
    Some (length d, d ++ [mkParagraph st None rs]).

Definition add_paragraph : Script ParagraphRef :=
  add_styled_paragraph EmptyString Normal.

(** [doc.add_heading(text, level)]: a level outside 0..9 raises. *)
Definition add_heading (txt : string) (level : Z) : Script ParagraphRef :=
  if (0 <=? level) && (level <=? 9) then
    add_styled_paragraph txt (if level =? 0 then Title else Heading level)
  else raise.

(** [p.alignment = a] *)
Definition set_alignment (p : ParagraphRef) (a : WD_ALIGN_PARAGRAPH) : Script unit :=
  fun d => match d !! p with
           | Some _ => Some (tt, alter (with_alignment a) p d)
           | None => None
           end.

(** [p.add_run(text)], for a [stored_verbatim] text: the library keeps
    such a text as it is given.  (On other texts it turns a carriage
    return into a line break and raises on a control character; the
    script passes none.) *)
Definition add_run (p : ParagraphRef) (txt : string) : Script RunRef :=
  fun d => match d !! p with
           | Some par =>
               Some ((p, length (par_runs par)),
                     alter (map_runs (fun rs => rs ++ [mkRun txt no_font])) p d)
           | None => None
           end.

(** [p.runs[i]]: an index past the end raises. *)
Definition runs_item (p : ParagraphRef) (i : nat) : Script RunRef :=
  fun d => match d !! p with
           | Some par => if decide (i < length (par_runs par))%nat
                         then Some ((p, i), d) else None
           | None => None
           end.

Definition set_font (g : Font -> Font) (r : RunRef) : Script unit :=
  fun d => match d !! r.1 with
           | Some par =>
               match par_runs par !! r.2 with
               | Some _ => Some (tt, alter (map_runs (alter (map_font g) r.2)) r.1 d)
               | None => None
               end
           | None => None
           end.

(** [run.font.color.rgb = c], [run.font.bold = b] and so on *)
Definition set_color_rgb (r : RunRef) (c : RGBColor) : Script unit := set_font (with_color c) r.
Definition set_bold (r : RunRef) (b : bool) : Script unit := set_font (with_bold b) r.
Definition set_italic (r : RunRef) (b : bool) : Script unit := set_font (with_italic b) r.
Definition set_underline (r : RunRef) (b : bool) : Script unit := set_font (with_underline b) r.
Definition set_size (r : RunRef) (n : Z) : Script unit := set_font (with_size n) r.

(** ** The script, section by section *)

Open Scope script_scope.

(** 1. the title *)
Definition title_section : Script unit :=
  title <- add_heading "复杂格式测试文档" 0 ;;
  set_alignment title CENTER ;;
  title_run <- runs_item title 0 ;;
  set_color_rgb title_run (RGB 0x1a 0x1a 0x1a).

(** 2. the subtitle *)
Definition subtitle_section : Script unit :=
  subtitle <- add_heading "格式保留测试" 1 ;;
  set_alignment subtitle CENTER ;;
  subtitle_run <- runs_item subtitle 0 ;;
  set_color_rgb subtitle_run (RGB 0xFF 0x00 0x00).

(** 3. a sentence in several colors *)
Definition para1_section : Script unit :=
  para1 <- add_paragraph ;;
  set_alignment para1 LEFT ;;
  run1 <- add_run para1 "这是" ;;
  set_color_rgb run1 (RGB 0x00 0x00 0x00) ;;
  run2 <- add_run para1 "蓝色" ;;
  set_color_rgb run2 (RGB 0x00 0x00 0xFF) ;;
  set_bold run2 true ;;
  run3 <- add_run para1 "的文字，" ;;
  set_color_rgb run3 (RGB 0x00 0x00 0x00) ;;
  run4 <- add_run para1 "绿色" ;;
  set_color_rgb run4 (RGB 0x00 0xFF 0x00) ;;
  set_italic run4 true ;;
  run5 <- add_run para1 "的文字，" ;;
  set_color_rgb run5 (RGB 0x00 0x00 0x00) ;;
  run6 <- add_run para1 "红色" ;;
  set_color_rgb run6 (RGB 0xFF 0x00 0x00) ;;
  set_bold run6 true ;;
  set_italic run6 true ;;
  run7 <- add_run para1 "的文字。" ;;
  set_color_rgb run7 (RGB 0x00 0x00 0x00).

(** 4. one run per character, rainbow colors *)
Definition text : string := "彩虹文字：".

Definition colors : list RGBColor := [
  RGB 0xFF 0x00 0x00;
  RGB 0xFF 0x7F 0x00;
  RGB 0xFF 0xFF 0x00;
  RGB 0x00 0xFF 0x00;
  RGB 0x00 0x00 0xFF;
  RGB 0x4B 0x00 0x82;
  RGB 0x94 0x00 0xD3
].

(** The loop body; [len_text] is [len(text)].  [len(text) - 1] is an
    integer subtraction and [colors[...]] raises when the index is out
    of range. *)
Definition rainbow_body (para2 : ParagraphRef) (len_text : nat)
    (ic : nat * string) : Script unit :=
  let '(i, char) := ic in
  run <- add_run para2 char ;;
  if (Z.of_nat i <? Z.of_nat len_text - 1)%Z then
    match colors !! (i mod length colors)%nat with
    | Some c => set_color_rgb run c
    | None => raise
    end
  else ret tt.

Definition rainbow_loop (para2 : ParagraphRef) (text : string) : Script unit :=
  for_each (enumerate (py_chars text))
           (rainbow_body para2 (length (py_chars text))).

Definition para2_section : Script unit :=
  para2 <- add_paragraph ;;
  set_alignment para2 LEFT ;;
  rainbow_loop para2 text.

(** 5. punctuation in its own color *)
Definition para3_section : Script unit :=
  para3 <- add_paragraph ;;
  set_alignment para3 LEFT ;;
  run_word1 <- add_run para3 "单词" ;;
  set_color_rgb run_word1 (RGB 0x00 0x00 0xFF) ;;
  run_punct1 <- add_run para3 "，" ;;
  set_color_rgb run_punct1 (RGB 0xFF 0x00 0x00) ;;
  run_word2 <- add_run para3 "标点" ;;
  set_color_rgb run_word2 (RGB 0x00 0xFF 0x00) ;;
  run_punct2 <- add_run para3 "。" ;;
  set_color_rgb run_punct2 (RGB 0xFF 0x00 0xFF).

(** 6. underline and color *)
Definition para4_section : Script unit :=
  para4 <- add_paragraph ;;
  set_alignment para4 LEFT ;;
  run_under1 <- add_run para4 "下划线" ;;
  set_color_rgb run_under1 (RGB 0xFF 0x00 0x00) ;;
  set_underline run_under1 true ;;
  run_normal <- add_run para4 " 普通文字 " ;;
  run_under2 <- add_run para4 "下划线" ;;
  set_color_rgb run_under2 (RGB 0x00 0x00 0xFF) ;;
  set_underline run_under2 true.

(** 7. font size and color *)
Definition para5_section : Script unit :=
  para5 <- add_paragraph ;;
  set_alignment para5 LEFT ;;
  run_size1 <- add_run para5 "小号" ;;
  set_size run_size1 (Pt 10) ;;
  set_color_rgb run_size1 (RGB 0xFF 0x00 0x00) ;;
  run_normal2 <- add_run para5 " 正常 " ;;
  run_size2 <- add_run para5 "大号" ;;
  set_size run_size2 (Pt 16) ;;
  set_color_rgb run_size2 (RGB 0x00 0x00 0xFF).

(** 8. a centered paragraph *)
Definition para6_section : Script unit :=
  para6 <- add_paragraph ;;
  set_alignment para6 CENTER ;;
  run_center1 <- add_run para6 "居中" ;;
  set_color_rgb run_center1 (RGB 0xFF 0x00 0x00) ;;
  set_bold run_center1 true ;;
  run_center2 <- add_run para6 " 文字 " ;;
  set_color_rgb run_center2 (RGB 0x00 0x00 0x00) ;;
  run_center3 <- add_run para6 "测试" ;;
  set_color_rgb run_center3 (RGB 0x00 0xFF 0x00) ;;
  set_italic run_center3 true.

(** 9. mixed formats *)
Definition complex_texts : list (string * RGBColor * bool * bool) := [
  ("这是", RGB 0x00 0x00 0x00, false, false);
  ("一个", RGB 0xFF 0x00 0x00, true, false);
  ("复杂", RGB 0x00 0xFF 0x00, false, true);
  ("的", RGB 0x00 0x00 0x00, false, false);
  ("格式", RGB 0x00 0x00 0xFF, true, true);
  ("测试", RGB 0xFF 0x00 0xFF, false, false);
  ("段落", RGB 0xFF 0x7F 0x00, true, true);
  ("。", RGB 0x00 0x00 0x00, false, false)
].

Definition complex_body (para7 : ParagraphRef)
    (item : string * RGBColor * bool * bool) : Script unit :=
  let '(text, color, bold, italic) := item in
  run <- add_run para7 text ;;
  set_color_rgb run color ;;
  set_bold run bold ;;
  set_italic run italic.

Definition para7_section : Script unit :=
  para7 <- add_paragraph ;;
  set_alignment para7 LEFT ;;
  for_each complex_texts (complex_body para7).

(** 10. special characters *)
Definition special_chars : list (string * RGBColor) := [
  ("特殊", RGB 0xFF 0x00 0x00);
  ("字符", RGB 0x00 0xFF 0x00);
  ("：", RGB 0x00 0x00 0xFF);
  ("@", RGB 0xFF 0x00 0xFF);
  ("#", RGB 0xFF 0x7F 0x00);
  ("$", RGB 0x00 0xFF 0xFF);
  ("%", RGB 0xFF 0xFF 0x00);
  ("&", RGB 0x00 0x00 0xFF);
  ("*", RGB 0xFF 0x00 0x00)
].

Definition special_body (para8 : ParagraphRef) (item : string * RGBColor) : Script unit :=
  let '(text, color) := item in
  run <- add_run para8 text ;;
  set_color_rgb run color.

Definition para8_section : Script unit :=
  para8 <- add_paragraph ;;
  set_alignment para8 LEFT ;;
  for_each special_chars (special_body para8).

(** The sections in the order of the file. *)
Definition sections : list (Script unit) := [
  title_section; subtitle_section;
  para1_section; para2_section; para3_section; para4_section;
  para5_section; para6_section; para7_section; para8_section
].

(** The whole script up to [doc.save]: the statements run on a fresh
    [Document()]; the result is the document handed to [save], or
    [None] when a statement raised. *)
Definition script : Script unit := for_each sections (fun s => s).

Definition build_document : option Document := snd <$> script Document_new.

Close Scope script_scope.

(** ** What is read back from the document *)

(** [run.font.color.rgb], [run.font.bold] and so on *)
Definition run_color (r : Run) : option RGBColor := font_color_rgb (run_font r).
Definition run_bold (r : Run) : option bool := font_bold (run_font r).
Definition run_italic (r : Run) : option bool := font_italic (run_font r).
Definition run_underline (r : Run) : option bool := font_underline (run_font r).
Definition run_size (r : Run) : option Z := font_size (run_font r).

(** All runs of the document, in document order. *)
Definition all_runs (d : Document) : list Run := concat (par_runs <$> d).

(** A run whose color, boldness and italics were all assigned. *)
Definition explicit_color_bold_italic (r : Run) : Prop :=
  is_Some (run_color r) /\ is_Some (run_bold r) /\ is_Some (run_italic r).

#[global] Instance explicit_color_bold_italic_dec (r : Run) :
  Decision (explicit_color_bold_italic r).
Proof. unfold explicit_color_bold_italic. apply _. Defined.

(** A run as [add_run] leaves it: no attribute assigned. *)
Definition plain_run (txt : string) : Run := mkRun txt no_font.

(** ** The loops, as the runs they add *)

(** The run the rainbow loop makes of the character [char] at position
    [i] of a text of [len_text] characters. *)
Definition rainbow_color (len_text i : nat) : option RGBColor :=
  if (Z.of_nat i <? Z.of_nat len_text - 1)%Z
  then colors !! (i mod length colors)%nat else None.

Definition rainbow_run (len_text : nat) (ic : nat * string) : Run :=
  mkRun ic.2 (mkFont (rainbow_color len_text ic.1) None None None None).

(** The runs the rainbow loop makes of a text. *)
Definition rainbow_runs (s : string) : list Run :=
  rainbow_run (length (py_chars s)) <$> enumerate (py_chars s).

(** The run the mixed-format loop makes of an item. *)
Definition complex_run (item : string * RGBColor * bool * bool) : Run :=
  let '(text, color, bold, italic) := item in
  mkRun text (mkFont (Some color) (Some bold) (Some italic) None None).

(** The run the special-character loop makes of an item. *)
Definition special_run (item : string * RGBColor) : Run :=
  mkRun item.1 (mkFont (Some item.2) None None None None).

(** What a section appends to the empty document. *)
Definition section_block (s : Script unit) : option Paragraph :=
  match s Document_new with
  | Some (_, [b]) => Some b
  | _ => None
  end.

(** ** The sections as functions of their data

    The two heading sections are the same four statements on a text, a
    level and a color; the character section reads its text from a
    variable assigned just before the loop. *)

Open Scope script_scope.

Definition heading_section (txt : string) (level : Z) (color : RGBColor) : Script unit :=
  heading <- add_heading txt level ;;
  set_alignment heading CENTER ;;
  heading_run <- runs_item heading 0 ;;
  set_color_rgb heading_run color.

Definition para2_section_on (text : string) : Script unit :=
  para2 <- add_paragraph ;;
  set_alignment para2 LEFT ;;
  rainbow_loop para2 text.

Close Scope script_scope.

(** ** Saving and the console summary *)

(** [str(n)] for a count *)
Definition py_str (n : nat) : string := NilZero.string_of_uint (Nat.to_uint n).

Definition output_path : string := "complex_reference.docx".

(** What the run of the file leaves behind: the document handed to
    [doc.save] with its path, and the printed lines. *)
Record Output := mkOutput {
  saved_path : string;
  saved_document : Document;
  printed : list string
}.

(** The three [print] calls after [doc.save(output_path)]. *)
Definition summary (doc : Document) : list string := [
  String.append "✅ 已生成复杂模板: " output_path;
  String.append "📄 包含 " (String.append (py_str (length doc)) " 个段落");
  "🎨 包含多种颜色格式：红色、蓝色、绿色、紫色、橙色、黄色等"
].

(** The whole file, run on the document [doc] that [Document()]
    returns; a failure of [save] itself is outside the model. *)
Definition main_from (doc : Document) : option Output :=
  match script doc with
  | Some (_, doc') => Some (mkOutput output_path doc' (summary doc'))
  | None => None
  end.

Definition main : option Output := main_from Document_new.

(** * Properties *)

(** ** Characters of a string *)

Lemma py_join_cons (c : string) (cs : list string) :
  py_join (c :: cs) = String.append c (py_join cs).
Proof. reflexivity. Qed.

(** Cutting a string into characters loses and reorders nothing. *)
Lemma py_join_py_chars (s : string) : py_join (py_chars s) = s.
Proof.
  induction s as [|a rest IH]; [reflexivity|].
  cbn [py_chars].
  destruct (starts_with_continuation rest) eqn:Hc.
  - destruct (py_chars rest) as [|c cs] eqn:Hp.
    + cbn in IH. subst rest. discriminate Hc.
    + rewrite py_join_cons in IH. rewrite py_join_cons. by rewrite <- IH.
  - rewrite py_join_cons. by rewrite IH.
Qed.

(** No character is the empty string. *)
Lemma py_chars_nonempty (s : string) : Forall (fun c => c <> EmptyString) (py_chars s).
Proof.
  induction s as [|a rest IH]; [constructor|].
  cbn [py_chars].
  destruct (starts_with_continuation rest).
  - destruct (py_chars rest) as [|c cs]; [by repeat constructor|].
    inversion IH; subst. by constructor.
  - by constructor.
Qed.

(** ** Statements on the paragraph added last

    Every section of the script works on the paragraph it has just
    appended, so the statements are characterised on a document
    [d ++ [b]] and the reference [length d]. *)

Lemma add_styled_paragraph_eq (txt : string) (st : Style) (d : Document) :
  add_styled_paragraph txt st d =
  Some (length d,
        d ++ [mkParagraph st None
                (if decide (txt = EmptyString) then [] else [mkRun txt no_font])]).
Proof. reflexivity. Qed.

Lemma set_alignment_last (d : Document) (b : Paragraph) (a : WD_ALIGN_PARAGRAPH) :
  set_alignment (length d) a (d ++ [b]) = Some (tt, d ++ [with_alignment a b]).
Proof.
  unfold set_alignment. rewrite list_lookup_middle by done.
  replace (length d) with (length d + 0)%nat at 1 by lia.
  by rewrite alter_app_r.
Qed.

Lemma add_run_last (d : Document) (b : Paragraph) (txt : string) :
  add_run (length d) txt (d ++ [b]) =
  Some ((length d, length (par_runs b)),
        d ++ [map_runs (fun rs => rs ++ [mkRun txt no_font]) b]).
Proof.
  unfold add_run. rewrite list_lookup_middle by done.
  replace (length d) with (length d + 0)%nat at 2 by lia.
  by rewrite alter_app_r.
Qed.

Lemma runs_item_last (d : Document) (b : Paragraph) (i : nat) :
  (i < length (par_runs b))%nat ->
  runs_item (length d) i (d ++ [b]) = Some ((length d, i), d ++ [b]).
Proof.
  intros Hi. unfold runs_item. rewrite list_lookup_middle by done.
  by rewrite decide_True.
Qed.

Lemma set_font_last (g : Font -> Font) (d : Document) (b : Paragraph) (i : nat) :
  (i < length (par_runs b))%nat ->
  set_font g (length d, i) (d ++ [b]) =
  Some (tt, d ++ [map_runs (alter (map_font g) i) b]).
Proof.
  intros Hi. unfold set_font. cbn [fst snd].
  rewrite list_lookup_middle by done.
  destruct (lookup_lt_is_Some_2 _ _ Hi) as [r ->].
  replace (length d) with (length d + 0)%nat at 1 by lia.
  by rewrite alter_app_r.
Qed.

(** Setting a font attribute on the run added last. *)
Lemma set_font_new (g : Font -> Font) (d : Document) (st : Style)
    (al : option WD_ALIGN_PARAGRAPH) (rs : list Run) (r : Run) :
  set_font g (length d, length rs) (d ++ [mkParagraph st al (rs ++ [r])]) =
  Some (tt, d ++ [mkParagraph st al (rs ++ [map_font g r])]).
Proof.
  rewrite set_font_last by (cbn; rewrite length_app; cbn; lia).
  unfold map_runs. cbn [par_style par_alignment par_runs].
  replace (length rs) with (length rs + 0)%nat by lia.
  by rewrite alter_app_r.
Qed.

Lemma add_run_new (d : Document) (st : Style) (al : option WD_ALIGN_PARAGRAPH)
    (rs : list Run) (txt : string) :
  add_run (length d) txt (d ++ [mkParagraph st al rs]) =
  Some ((length d, length rs), d ++ [mkParagraph st al (rs ++ [mkRun txt no_font])]).
Proof. by rewrite add_run_last. Qed.

(** ** Loops

    A loop whose body appends one run to the paragraph added last
    appends the runs of all its items, in order. *)

Lemma for_each_appends {A} (body : A -> Script unit) (mk : A -> Run) (d : Document) :
  (forall x st al rs,
      body x (d ++ [mkParagraph st al rs]) =
      Some (tt, d ++ [mkParagraph st al (rs ++ [mk x])])) ->
  forall l st al rs,
    for_each l body (d ++ [mkParagraph st al rs]) =
    Some (tt, d ++ [mkParagraph st al (rs ++ (mk <$> l))]).
Proof.
  intros Hbody l. induction l as [|x l IH]; intros st al rs.
  - cbn. by rewrite app_nil_r.
  - cbn [for_each]. unfold bind. rewrite Hbody, IH.
    by rewrite <- app_assoc.
Qed.

Lemma colors_lookup (i : nat) : is_Some (colors !! (i mod length colors)%nat).
Proof.
  apply lookup_lt_is_Some_2. apply Nat.mod_upper_bound. discriminate.
Qed.

Lemma rainbow_body_last (d : Document) (n : nat) (ic : nat * string) st al rs :
  rainbow_body (length d) n ic (d ++ [mkParagraph st al rs]) =
  Some (tt, d ++ [mkParagraph st al (rs ++ [rainbow_run n ic])]).
Proof.
  destruct ic as [i c]. unfold rainbow_body, rainbow_run, rainbow_color, bind.
  rewrite add_run_new. cbn [fst snd].
  destruct (Z.of_nat i <? Z.of_nat n - 1)%Z; [|reflexivity].
  destruct (colors_lookup i) as [col ->].
  unfold set_color_rgb. by rewrite set_font_new.
Qed.

Lemma rainbow_loop_last (d : Document) (s : string) st al rs :
  rainbow_loop (length d) s (d ++ [mkParagraph st al rs]) =
  Some (tt, d ++ [mkParagraph st al (rs ++ rainbow_runs s)]).
Proof.
  unfold rainbow_loop. apply for_each_appends. intros. apply rainbow_body_last.
Qed.

Lemma complex_body_last (d : Document) item st al rs :
  complex_body (length d) item (d ++ [mkParagraph st al rs]) =
  Some (tt, d ++ [mkParagraph st al (rs ++ [complex_run item])]).
Proof.
  destruct item as [[[t c] b] i]. unfold complex_body, complex_run, bind.
  rewrite add_run_new.
  unfold set_color_rgb, set_bold, set_italic. by rewrite !set_font_new.
Qed.

Lemma special_body_last (d : Document) item st al rs :
  special_body (length d) item (d ++ [mkParagraph st al rs]) =
  Some (tt, d ++ [mkParagraph st al (rs ++ [special_run item])]).
Proof.
  destruct item as [t c]. unfold special_body, special_run, bind.
  rewrite add_run_new. unfold set_color_rgb. by rewrite set_font_new.
Qed.

(** ** Every section appends one paragraph

    A section reads nothing of the document it is run on: it appends
    its paragraph and leaves the paragraphs before it as they were. *)

Lemma bind_eq {A B} (m : Script A) (k : A -> Script B) (d d' : Document) (a : A) :
  m d = Some (a, d') -> bind m k d = k a d'.
Proof. unfold bind. by intros ->. Qed.

Lemma add_heading_eq (txt : string) (level : Z) (d : Document) :
  (0 <= level <= 9)%Z ->
  add_heading txt level d =
  Some (length d,
        d ++ [mkParagraph (if (level =? 0)%Z then Title else Heading level) None
                (if decide (txt = EmptyString) then [] else [mkRun txt no_font])]).
Proof.
  intros H. unfold add_heading.
  replace ((0 <=? level)%Z && (level <=? 9)%Z) with true; [reflexivity|].
  symmetry. apply andb_true_iff. split; apply Z.leb_le; lia.
Qed.

Ltac normalise_block :=
  match goal with
  | |- context [?d ++ [?b]] =>
      let b' := eval vm_compute in b in change (d ++ [b]) with (d ++ [b'])
  end.

Ltac statement :=
  first
    [ apply add_styled_paragraph_eq
    | apply add_heading_eq; lia
    | apply set_alignment_last
    | apply add_run_last
    | apply runs_item_last; vm_compute; lia
    | apply set_font_last; vm_compute; lia ].

Ltac statements :=
  unfold set_color_rgb, set_bold, set_italic, set_underline, set_size, add_paragraph;
  repeat (erewrite bind_eq by statement; normalise_block).

Ltac last_statement :=
  first
    [ rewrite set_font_last by (vm_compute; lia)
    | rewrite rainbow_loop_last
    | rewrite (for_each_appends _ complex_run) by (intros; apply complex_body_last)
    | rewrite (for_each_appends _ special_run) by (intros; apply special_body_last) ];
  reflexivity.

Lemma section_appends (s : Script unit) (d : Document) :
  s ∈ sections ->
  exists b, s d = Some (tt, d ++ [b]) /\ section_block s = Some b.
Proof.
  unfold sections. rewrite !elem_of_cons, elem_of_nil.
  intros H. repeat (destruct H as [->|H]); [..|done];
    (eexists; split; [|vm_compute; reflexivity]).
  - unfold title_section. statements. last_statement.
  - unfold subtitle_section. statements. last_statement.
  - unfold para1_section. statements. last_statement.
  - unfold para2_section. statements. last_statement.
  - unfold para3_section. statements. last_statement.
  - unfold para4_section. statements. last_statement.
  - unfold para5_section. statements. last_statement.
  - unfold para6_section. statements. last_statement.
  - unfold para7_section. statements. last_statement.
  - unfold para8_section. statements. last_statement.
Qed.

(** ** The whole script *)

(** Sections that each append one paragraph append, run in sequence,
    their paragraphs in that sequence. *)
Lemma for_each_sections (l : list (Script unit)) :
  (forall s, s ∈ l ->
     forall d, exists b, s d = Some (tt, d ++ [b]) /\ section_block s = Some b) ->
  exists bs, Forall2 (fun s b => section_block s = Some b) l bs /\
             forall d, for_each l (fun s => s) d = Some (tt, d ++ bs).
Proof.
  induction l as [|s l IH]; intros Hl.
  - exists []. split; [constructor|]. intros d. cbn. by rewrite app_nil_r.
  - destruct IH as (bs & Hbs & Hrun).
    { intros s' Hs'. apply Hl. by right. }
    destruct (Hl s (list_elem_of_here _ _) []) as (b & _ & Hb).
    exists (b :: bs). split; [by constructor|].
    intros d. destruct (Hl s (list_elem_of_here _ _) d) as (b' & Hs & Hb').
    assert (b' = b) as -> by congruence.
    cbn [for_each]. rewrite (bind_eq _ _ _ _ _ Hs), Hrun.
    by rewrite <- app_assoc.
Qed.

(** Run on any document, the script succeeds and appends the blocks of
    its sections. *)
Lemma script_appends :
  exists bs, Forall2 (fun s b => section_block s = Some b) sections bs /\
             forall d, script d = Some (tt, d ++ bs).
Proof.
  unfold script. apply for_each_sections. intros s Hs d. by apply section_appends.
Qed.

Lemma build_document_from_sections (bs : list Paragraph) :
  Forall2 (fun s b => section_block s = Some b) sections bs ->
  build_document = Some bs.
Proof.
  intros Hbs. destruct script_appends as (bs' & Hbs' & Hrun).
  assert (bs' = bs) as ->.
  { clear Hrun. revert bs' Hbs'. induction Hbs as [|s b l bs Hb _ IH]; intros bs' Hbs'.
    - by inversion Hbs'.
    - inversion Hbs' as [|? b' ? bs'' Hb' Hrest]; subst.
      f_equal; [congruence|]. by apply IH. }
  unfold build_document. by rewrite Hrun.
Qed.

Ltac in_sections :=
  unfold sections; repeat first [apply list_elem_of_here | apply list_elem_of_further].

Ltac section_frame :=
  let d := fresh "d" in
  let b := fresh "b" in
  let Hrun := fresh "Hrun" in
  let Hb := fresh "Hb" in
  intros d;
  match goal with
  | |- ?s d = _ =>
      destruct (section_appends s d) as (b & Hrun & Hb); [in_sections|];
      vm_compute in Hb; injection Hb as Hb; subst b; exact Hrun
  end.

(** ** The assembled document *)

(** C4: the script runs each of its ten sections once, in the order of
    the catalog, and the document consists of the blocks they append in
    that order: the title heading and the subtitle heading, each with
    an explicit color on its single run, then the eight pattern
    paragraphs (multi-color sentence, character cycling, punctuation,
    underline, size, alignment, combinatorial, special characters). *)
Theorem build_document_catalog_order :
  exists title subtitle para1 para2 para3 para4 para5 para6 para7 para8,
    let blocks :=
      [title; subtitle; para1; para2; para3; para4; para5; para6; para7; para8] in
    build_document = Some blocks /\
    Forall2 (fun s b => forall d, s d = Some (tt, d ++ [b])) sections blocks /\
    script = for_each sections (fun s => s) /\
    NoDup blocks /\
    par_style title = Title /\
    run_color <$> par_runs title = [Some (RGB 0x1a 0x1a 0x1a)] /\
    par_style subtitle = Heading 1 /\
    run_color <$> par_runs subtitle = [Some (RGB 0xFF 0x00 0x00)] /\
    par_style <$> [para1; para2; para3; para4; para5; para6; para7; para8] =
      replicate 8 Normal /\
    par_text <$> blocks =
      ["复杂格式测试文档"; "格式保留测试";
       "这是蓝色的文字，绿色的文字，红色的文字。"; "彩虹文字：";
       "单词，标点。"; "下划线 普通文字 下划线"; "小号 正常 大号";
       "居中 文字 测试"; "这是一个复杂的格式测试段落。"; "特殊字符：@#$%&*"].
Proof.
  do 10 eexists. cbv zeta.
  split; [vm_compute; reflexivity|].
  split.
  { unfold sections. repeat (apply List.Forall2_cons; [section_frame|]).
    apply List.Forall2_nil. }
  split; [reflexivity|].
  split; [compute_done|].
  repeat split.
Qed.

(** ** The character loop on any text *)

Section rainbow.
Variable s : string.

Lemma rainbow_runs_text : run_text <$> rainbow_runs s = py_chars s.
Proof.
  unfold rainbow_runs, enumerate. rewrite <- list_fmap_compose, fmap_imap.
  rewrite (imap_ext _ (const id)) by done.
  by rewrite imap_const, list_fmap_id.
Qed.

Lemma rainbow_runs_join : py_join (run_text <$> rainbow_runs s) = s.
Proof. rewrite rainbow_runs_text. apply py_join_py_chars. Qed.

Lemma rainbow_runs_nonempty :
  Forall (fun r => run_text r <> EmptyString) (rainbow_runs s).
Proof.
  apply (Forall_fmap run_text (fun t => t <> EmptyString)).
  rewrite rainbow_runs_text. apply py_chars_nonempty.
Qed.

Lemma rainbow_runs_length : length (rainbow_runs s) = length (py_chars s).
Proof. unfold rainbow_runs, enumerate. by rewrite length_fmap, length_imap. Qed.

Lemma rainbow_runs_lookup (i : nat) (c : string) :
  py_chars s !! i = Some c ->
  rainbow_runs s !! i =
  Some (mkRun c (mkFont (rainbow_color (length (py_chars s)) i) None None None None)).
Proof.
  intros Hc. unfold rainbow_runs, enumerate.
  by rewrite list_lookup_fmap, list_lookup_imap, Hc.
Qed.

(** Every character but the last takes the palette color of its
    position modulo the palette length. *)
Lemma rainbow_runs_color (i : nat) :
  (i + 1 < length (py_chars s))%nat ->
  run_color <$> rainbow_runs s !! i = Some (colors !! (i mod length colors)%nat).
Proof.
  intros Hi.
  destruct (lookup_lt_is_Some_2 (py_chars s) i) as [c Hc]; [lia|].
  rewrite (rainbow_runs_lookup i c Hc). cbn. unfold run_color, rainbow_color. cbn.
  destruct (Z.ltb_spec (Z.of_nat i) (Z.of_nat (length (py_chars s)) - 1)); [done|lia].
Qed.

(** The last character is left without a color. *)
Lemma rainbow_runs_last (i : nat) :
  (i + 1 = length (py_chars s))%nat ->
  run_color <$> rainbow_runs s !! i = Some None.
Proof.
  intros Hi.
  destruct (lookup_lt_is_Some_2 (py_chars s) i) as [c Hc]; [lia|].
  rewrite (rainbow_runs_lookup i c Hc). cbn. unfold run_color, rainbow_color. cbn.
  destruct (Z.ltb_spec (Z.of_nat i) (Z.of_nat (length (py_chars s)) - 1)); [lia|done].
Qed.

(** Their colors, as a function of the position. *)
Lemma rainbow_runs_colors :
  run_color <$> rainbow_runs s =
  imap (fun i _ => if decide (i + 1 < length (rainbow_runs s))%nat
                   then colors !! (i mod length colors)%nat else None)
       (rainbow_runs s).
Proof.
  apply list_eq. intros i.
  rewrite list_lookup_fmap, list_lookup_imap, rainbow_runs_length.
  destruct (decide (i < length (py_chars s))%nat) as [Hi|Hi].
  - destruct (lookup_lt_is_Some_2 (py_chars s) i Hi) as [c Hc].
    destruct (decide (i + 1 < length (py_chars s))%nat) as [Hlt|Hge].
    + pose proof (rainbow_runs_color i Hlt) as Hcol.
      destruct (rainbow_runs s !! i); [|done]. cbn in *. congruence.
    + pose proof (rainbow_runs_last i ltac:(lia)) as Hcol.
      destruct (rainbow_runs s !! i); [|done]. cbn in *. congruence.
  - rewrite (proj2 (lookup_ge_None (rainbow_runs s) i)); [done|].
    rewrite rainbow_runs_length. lia.
Qed.
End rainbow.

(** C3: the texts of a paragraph's runs, joined in run order, are the
    literal text of the paragraph, for each of the ten blocks; the
    character paragraph reads back its source string [text], and the
    character loop rebuilds any text it is given, character for
    character. *)
Theorem paragraph_text_is_literal :
  exists doc,
    build_document = Some doc /\
    par_text <$> doc =
      ["复杂格式测试文档"; "格式保留测试";
       "这是蓝色的文字，绿色的文字，红色的文字。"; text;
       "单词，标点。"; "下划线 普通文字 下划线"; "小号 正常 大号";
       "居中 文字 测试";
       py_join ((fun item => item.1.1.1) <$> complex_texts);
       py_join (fst <$> special_chars)] /\
    par_text <$> doc !! 3%nat = Some "彩虹文字：" /\
    forall (s : string) (d : Document) st al rs,
      exists rs',
        rainbow_loop (length d) s (d ++ [mkParagraph st al rs]) =
          Some (tt, d ++ [mkParagraph st al (rs ++ rs')]) /\
        py_join (run_text <$> rs') = s.
Proof.
  eexists. split; [vm_compute; reflexivity|].
  split; [reflexivity|]. split; [reflexivity|].
  intros s d st al rs. eexists. split; [apply rainbow_loop_last|].
  apply rainbow_runs_join.
Qed.

(** C7: no run of the assembled document has an empty text, and the
    character loop adds no empty run whatever the text; the script has
    no statement that raises on an empty text and runs to its end. *)
Theorem no_empty_run :
  exists doc,
    build_document = Some doc /\
    Forall (fun r => run_text r <> EmptyString) (all_runs doc) /\
    forall (s : string) (d : Document) st al rs,
      exists rs',
        rainbow_loop (length d) s (d ++ [mkParagraph st al rs]) =
          Some (tt, d ++ [mkParagraph st al (rs ++ rs')]) /\
        Forall (fun r => run_text r <> EmptyString) rs'.
Proof.
  eexists. split; [vm_compute; reflexivity|].
  split; [compute_done|].
  intros s d st al rs. eexists. split; [apply rainbow_loop_last|].
  apply rainbow_runs_nonempty.
Qed.

(** ** Alignment and runs *)

(** Assigning a paragraph's alignment changes the runs of no
    paragraph. *)
Lemma set_alignment_runs (p : ParagraphRef) (a : WD_ALIGN_PARAGRAPH) (d d' : Document) :
  set_alignment p a d = Some (tt, d') -> par_runs <$> d' = par_runs <$> d.
Proof.
  unfold set_alignment. destruct (d !! p); [|done].
  intros [= <-].
  rewrite (list_fmap_alter par_runs (with_alignment a) id).
  - by apply list_alter_id.
  - by apply Forall_forall.
Qed.

Lemma set_alignment_defined (p : ParagraphRef) (a : WD_ALIGN_PARAGRAPH) (d : Document) :
  (p < length d)%nat -> exists d', set_alignment p a d = Some (tt, d').
Proof.
  intros Hp. unfold set_alignment.
  destruct (lookup_lt_is_Some_2 d p Hp) as [b ->]. eauto.
Qed.

(** Every [RGBColor] the script builds has its components in range,
    so none of the constructor calls raises. *)
Lemma script_colors_valid :
  forallb valid_rgb colors = true /\
  forallb (fun item => valid_rgb item.1.1.2) complex_texts = true /\
  forallb (fun item => valid_rgb item.2) special_chars = true /\
  exists doc,
    build_document = Some doc /\
    Forall (fun r => from_option valid_rgb true (run_color r) = true) (all_runs doc).
Proof.
  do 3 (split; [reflexivity|]).
  eexists. split; [vm_compute; reflexivity|]. compute_done.
Qed.

(** ** Attributes of the runs *)

(** C1, as stated, fails: the run [' 普通文字 '] of the underline
    paragraph is in the document with no color, no boldness and no
    italics assigned, so not every run has the three assigned. *)
Lemma explicit_everywhere_fails :
  (exists doc p r,
      build_document = Some doc /\ doc !! 5%nat = Some p /\
      par_runs p !! 1%nat = Some r /\
      r = plain_run " 普通文字 " /\
      run_color r = None /\ run_bold r = None /\ run_italic r = None) /\
  ~ (forall doc, build_document = Some doc ->
                 Forall explicit_color_bold_italic (all_runs doc)).
Proof.
  split.
  - do 3 eexists. split; [vm_compute; reflexivity|].
    split; [reflexivity|]. split; [reflexivity|]. by repeat split.
  - intros H. specialize (H _ ltac:(vm_compute; reflexivity)).
    revert H. compute_done.
Qed.

(** C1, amended: every run has a color assigned except three runs,
    which are in the document with no attribute assigned at all: the
    last character of the character paragraph and the plain runs of the
    underline and the size paragraphs.  Every run of the combinatorial
    paragraph has color, boldness and italics assigned, to the values
    of its row, as has any run its loop makes.  On the other paragraphs
    boldness and italics are assigned, to true, on exactly the runs on
    which the section turns them on.  Underline is assigned on exactly
    the two underlined runs and size on exactly the two sized runs. *)
Theorem explicit_attributes :
  exists doc para2 para4 para5 para7,
    build_document = Some doc /\
    Forall (fun r => is_Some (run_color r) \/
                     r ∈ [plain_run "："; plain_run " 普通文字 "; plain_run " 正常 "])
           (all_runs doc) /\
    filter (fun r => run_color r = None) (all_runs doc) =
      [plain_run "："; plain_run " 普通文字 "; plain_run " 正常 "] /\
    doc !! 3%nat = Some para2 /\ par_runs para2 !! 4%nat = Some (plain_run "：") /\
    doc !! 5%nat = Some para4 /\ par_runs para4 !! 1%nat = Some (plain_run " 普通文字 ") /\
    doc !! 6%nat = Some para5 /\ par_runs para5 !! 1%nat = Some (plain_run " 正常 ") /\
    doc !! 8%nat = Some para7 /\
    (forall d, para7_section d = Some (tt, d ++ [para7])) /\
    Forall explicit_color_bold_italic (par_runs para7) /\
    (fun r => (run_text r, run_color r, run_bold r, run_italic r)) <$> par_runs para7 =
      (fun item => (item.1.1.1, Some item.1.1.2, Some item.1.2, Some item.2))
        <$> complex_texts /\
    (forall item, explicit_color_bold_italic (complex_run item)) /\
    Forall (fun r => run_bold r <> Some false /\ run_italic r <> Some false)
           (all_runs (delete 8%nat doc)) /\
    (fun r => (run_text r, run_bold r, run_italic r)) <$>
      filter (fun r => is_Some (run_bold r) \/ is_Some (run_italic r))
             (all_runs (delete 8%nat doc)) =
      [("蓝色", Some true, None); ("绿色", None, Some true);
       ("红色", Some true, Some true);
       ("居中", Some true, None); ("测试", None, Some true)] /\
    filter (fun r => is_Some (run_underline r)) (all_runs doc) =
      [mkRun "下划线" (mkFont (Some (RGB 0xFF 0x00 0x00)) None None (Some true) None);
       mkRun "下划线" (mkFont (Some (RGB 0x00 0x00 0xFF)) None None (Some true) None)] /\
    filter (fun r => is_Some (run_size r)) (all_runs doc) =
      [mkRun "小号" (mkFont (Some (RGB 0xFF 0x00 0x00)) None None None (Some (Pt 10)));
       mkRun "大号" (mkFont (Some (RGB 0x00 0x00 0xFF)) None None None (Some (Pt 16)))].
Proof.
  do 5 eexists. split; [vm_compute; reflexivity|].
  split; [compute_done|].
  split; [reflexivity|].
  do 7 (split; [reflexivity|]).
  split; [section_frame|].
  split; [compute_done|].
  split; [reflexivity|].
  split.
  { intros [[[t c] b] i]. unfold explicit_color_bold_italic. cbn. eauto. }
  split; [compute_done|].
  split; [reflexivity|].
  split; reflexivity.
Qed.

(** C2, as stated, fails: the character paragraph has five runs, the
    fifth has no color and there is no sixth, so its first six run
    colors are not the first six palette colors. *)
Lemma six_rainbow_colors_fails :
  (exists doc p,
      build_document = Some doc /\ doc !! 3%nat = Some p /\
      length (par_runs p) = 5%nat /\
      run_color <$> par_runs p !! 4%nat = Some None /\
      par_runs p !! 5%nat = None) /\
  ~ (exists doc p,
        build_document = Some doc /\ doc !! 3%nat = Some p /\
        run_color <$> take 6 (par_runs p) = Some <$> take 6 colors).
Proof.
  split.
  - do 2 eexists. split; [vm_compute; reflexivity|]. by repeat split.
  - intros (doc & p & Hdoc & Hp & Hcolors).
    vm_compute in Hdoc. injection Hdoc as <-.
    injection Hp as <-. vm_compute in Hcolors. discriminate Hcolors.
Qed.

(** C2, amended: in the character paragraph the first four characters
    carry the colors (FF,00,00), (FF,7F,00), (FF,FF,00), (00,FF,00),
    the palette entries at their positions modulo the length of the
    seven-color palette, and the fifth and last character carries no
    color; on any text, the loop gives every character but the last
    the palette color at its position modulo the palette length. *)
Theorem rainbow_paragraph_colors :
  exists doc p,
    build_document = Some doc /\ doc !! 3%nat = Some p /\
    (forall d, para2_section d = Some (tt, d ++ [p])) /\
    run_text <$> par_runs p = ["彩"; "虹"; "文"; "字"; "："] /\
    run_color <$> par_runs p =
      [Some (RGB 0xFF 0x00 0x00); Some (RGB 0xFF 0x7F 0x00);
       Some (RGB 0xFF 0xFF 0x00); Some (RGB 0x00 0xFF 0x00); None] /\
    length colors = 7%nat /\
    run_color <$> par_runs p =
      imap (fun i _ => if decide (i + 1 < length (par_runs p))%nat
                       then colors !! (i mod length colors)%nat else None)
           (par_runs p) /\
    forall (s : string) (d : Document) st al rs,
      exists rs',
        rainbow_loop (length d) s (d ++ [mkParagraph st al rs]) =
          Some (tt, d ++ [mkParagraph st al (rs ++ rs')]) /\
        length rs' = length (py_chars s) /\
        run_color <$> rs' =
          imap (fun i _ => if decide (i + 1 < length rs')%nat
                           then colors !! (i mod length colors)%nat else None) rs'.
Proof.
  do 2 eexists. split; [vm_compute; reflexivity|].
  split; [reflexivity|].
  split; [section_frame|].
  do 4 (split; [reflexivity|]).
  intros s d st al rs. exists (rainbow_runs s). split; [apply rainbow_loop_last|].
  split; [apply rainbow_runs_length|]. apply rainbow_runs_colors.
Qed.

(** C10: the source string has five characters, so the character
    paragraph takes the first four palette entries only; the fifth,
    sixth and seventh entries are on none of its runs, and the position
    modulo the palette length is the position itself for every colored
    character. *)
Theorem rainbow_never_wraps :
  exists doc p,
    build_document = Some doc /\ doc !! 3%nat = Some p /\
    length (py_chars text) = 5%nat /\
    length (par_runs p) = 5%nat /\
    run_color <$> par_runs p = (Some <$> take 4 colors) ++ [None] /\
    Forall (fun c => Some c ∉ run_color <$> par_runs p) (drop 4 colors) /\
    drop 4 colors = [RGB 0x00 0x00 0xFF; RGB 0x4B 0x00 0x82; RGB 0x94 0x00 0xD3] /\
    Forall (fun i => (i mod length colors = i)%nat)
           (seq 0 (length (py_chars text) - 1)).
Proof.
  do 2 eexists. split; [vm_compute; reflexivity|].
  split; [reflexivity|].
  do 3 (split; [reflexivity|]).
  split; [compute_done|].
  split; [reflexivity|].
  compute_done.
Qed.

(** C5: the combinatorial paragraph has, for each of the four
    combinations of boldness and italics, a run on which both are
    assigned to that combination together with an assigned color. *)
Theorem combinatorial_paragraph_covers (b i : bool) :
  exists doc p r c,
    build_document = Some doc /\ doc !! 8%nat = Some p /\
    (forall d, para7_section d = Some (tt, d ++ [p])) /\
    par_runs p = complex_run <$> complex_texts /\
    r ∈ par_runs p /\
    run_color r = Some c /\ run_bold r = Some b /\ run_italic r = Some i.
Proof.
  destruct b, i; do 2 eexists.
  - exists (complex_run ("格式", RGB 0x00 0x00 0xFF, true, true)). eexists.
    split; [vm_compute; reflexivity|]. split; [reflexivity|].
    split; [section_frame|]. split; [reflexivity|]. split; [compute_done|done].
  - exists (complex_run ("一个", RGB 0xFF 0x00 0x00, true, false)). eexists.
    split; [vm_compute; reflexivity|]. split; [reflexivity|].
    split; [section_frame|]. split; [reflexivity|]. split; [compute_done|done].
  - exists (complex_run ("复杂", RGB 0x00 0xFF 0x00, false, true)). eexists.
    split; [vm_compute; reflexivity|]. split; [reflexivity|].
    split; [section_frame|]. split; [reflexivity|]. split; [compute_done|done].
  - exists (complex_run ("这是", RGB 0x00 0x00 0x00, false, false)). eexists.
    split; [vm_compute; reflexivity|]. split; [reflexivity|].
    split; [section_frame|]. split; [reflexivity|]. split; [compute_done|done].
Qed.

(** C8: the underline paragraph has three runs; the first and the
    third are underlined and colored, red and blue, two different
    colors; the run between them has no underline and no color. *)
Theorem underline_paragraph_alternates :
  exists doc p r1 r2 r3,
    build_document = Some doc /\ doc !! 5%nat = Some p /\
    (forall d, para4_section d = Some (tt, d ++ [p])) /\
    par_runs p = [r1; r2; r3] /\
    run_underline r1 = Some true /\ run_color r1 = Some (RGB 0xFF 0x00 0x00) /\
    run_underline r2 = None /\ run_color r2 = None /\ r2 = plain_run " 普通文字 " /\
    run_underline r3 = Some true /\ run_color r3 = Some (RGB 0x00 0x00 0xFF) /\
    run_color r1 <> run_color r3.
Proof.
  do 5 eexists. split; [vm_compute; reflexivity|].
  split; [reflexivity|]. split; [section_frame|].
  split; [reflexivity|]. by repeat split.
Qed.

(** C9: the alignment paragraph is centered; its runs have assigned,
    pairwise different colors, one of them is bold and one is italic;
    assigning the paragraph's alignment, to any value, leaves the runs
    of the document as they are. *)
Theorem centered_paragraph_runs :
  exists doc p,
    build_document = Some doc /\ doc !! 7%nat = Some p /\
    (forall d, para6_section d = Some (tt, d ++ [p])) /\
    par_alignment p = Some CENTER /\
    Forall (fun r => is_Some (run_color r)) (par_runs p) /\
    NoDup (run_color <$> par_runs p) /\
    Exists (fun r => run_bold r = Some true) (par_runs p) /\
    Exists (fun r => run_italic r = Some true) (par_runs p) /\
    forall a, exists doc',
      set_alignment 7%nat a doc = Some (tt, doc') /\
      par_runs <$> doc' = par_runs <$> doc.
Proof.
  do 2 eexists. split; [vm_compute; reflexivity|].
  split; [reflexivity|]. split; [section_frame|].
  split; [reflexivity|].
  do 4 (split; [compute_done|]).
  intros a.
  match goal with
  | |- exists _, set_alignment ?p a ?d = _ /\ _ =>
      destruct (set_alignment_defined p a d) as [doc' Hdoc']; [vm_compute; lia|]
  end.
  exists doc'. split; [exact Hdoc'|]. exact (set_alignment_runs _ _ _ _ Hdoc').
Qed.

(** * Further properties of the loops and sections *)

(** ** Statements on any paragraph of the document *)

Lemma alter_lookup_insert {A} (f : A -> A) (l : list A) (i : nat) (x : A) :
  l !! i = Some x -> alter f i l = <[i := f x]> l.
Proof.
  revert i. induction l as [|y l IH]; intros [|i] Hi; try done.
  - cbn in Hi. injection Hi as ->. done.
  - cbn in *. f_equal. by apply IH.
Qed.

Lemma add_run_at (d : Document) (p : nat) st al rs (txt : string) :
  (p < length d)%nat ->
  add_run p txt (<[p := mkParagraph st al rs]> d) =
  Some ((p, length rs), <[p := mkParagraph st al (rs ++ [mkRun txt no_font])]> d).
Proof.
  intros Hp. unfold add_run. rewrite list_lookup_insert_eq by done.
  rewrite (alter_lookup_insert _ _ _ (mkParagraph st al rs))
    by (by apply list_lookup_insert_eq).
  by rewrite list_insert_insert_eq.
Qed.

Lemma set_font_new_at (g : Font -> Font) (d : Document) (p : nat) st al rs (r : Run) :
  (p < length d)%nat ->
  set_font g (p, length rs) (<[p := mkParagraph st al (rs ++ [r])]> d) =
  Some (tt, <[p := mkParagraph st al (rs ++ [map_font g r])]> d).
Proof.
  intros Hp. unfold set_font. cbn [fst snd].
  rewrite list_lookup_insert_eq by done. cbn [par_runs].
  rewrite list_lookup_middle by done.
  rewrite (alter_lookup_insert _ _ _ (mkParagraph st al (rs ++ [r])))
    by (by apply list_lookup_insert_eq).
  rewrite list_insert_insert_eq. unfold map_runs. cbn [par_style par_alignment par_runs].
  replace (length rs) with (length rs + 0)%nat by lia.
  by rewrite alter_app_r.
Qed.

Lemma for_each_appends_at {A} (body : A -> Script unit) (mk : A -> Run)
    (d : Document) (p : nat) :
  (forall x st al rs,
      body x (<[p := mkParagraph st al rs]> d) =
      Some (tt, <[p := mkParagraph st al (rs ++ [mk x])]> d)) ->
  forall l st al rs,
    for_each l body (<[p := mkParagraph st al rs]> d) =
    Some (tt, <[p := mkParagraph st al (rs ++ (mk <$> l))]> d).
Proof.
  intros Hbody l. induction l as [|x l IH]; intros st al rs.
  - cbn. by rewrite app_nil_r.
  - cbn [for_each]. unfold bind. rewrite Hbody, IH.
    by rewrite <- app_assoc.
Qed.

Lemma rainbow_body_at (d : Document) (p n : nat) (ic : nat * string) st al rs :
  (p < length d)%nat ->
  rainbow_body p n ic (<[p := mkParagraph st al rs]> d) =
  Some (tt, <[p := mkParagraph st al (rs ++ [rainbow_run n ic])]> d).
Proof.
  intros Hp. destruct ic as [i c].
  unfold rainbow_body, rainbow_run, rainbow_color, bind.
  rewrite add_run_at by done. cbn [fst snd].
  destruct (Z.of_nat i <? Z.of_nat n - 1)%Z; [|reflexivity].
  destruct (colors_lookup i) as [col ->].
  unfold set_color_rgb. by rewrite set_font_new_at.
Qed.

Lemma complex_body_at (d : Document) (p : nat) item st al rs :
  (p < length d)%nat ->
  complex_body p item (<[p := mkParagraph st al rs]> d) =
  Some (tt, <[p := mkParagraph st al (rs ++ [complex_run item])]> d).
Proof.
  intros Hp. destruct item as [[[t c] b] i]. unfold complex_body, complex_run, bind.
  rewrite add_run_at by done.
  unfold set_color_rgb, set_bold, set_italic. by rewrite !set_font_new_at.
Qed.

Lemma special_body_at (d : Document) (p : nat) item st al rs :
  (p < length d)%nat ->
  special_body p item (<[p := mkParagraph st al rs]> d) =
  Some (tt, <[p := mkParagraph st al (rs ++ [special_run item])]> d).
Proof.
  intros Hp. destruct item as [t c]. unfold special_body, special_run, bind.
  rewrite add_run_at by done. unfold set_color_rgb. by rewrite set_font_new_at.
Qed.

Lemma insert_paragraph_id (d : Document) (p : nat) (par : Paragraph) :
  d !! p = Some par ->
  d = <[p := mkParagraph (par_style par) (par_alignment par) (par_runs par)]> d.
Proof. intros Hp. symmetry. apply list_insert_id. by destruct par. Qed.

(** A statement on a reference to no paragraph raises. *)
Lemma add_run_dangling (d : Document) (p : nat) (txt : string) :
  d !! p = None -> add_run p txt d = None.
Proof. unfold add_run. by intros ->. Qed.

Lemma string_append_assoc (a b c : string) :
  String.append (String.append a b) c = String.append a (String.append b c).
Proof.
  induction a as [|x a IH]; [done|].
  change (String x (String.append (String.append a b) c) =
          String x (String.append a (String.append b c))).
  by rewrite IH.
Qed.

Lemma py_join_app (l1 l2 : list string) :
  py_join (l1 ++ l2) = String.append (py_join l1) (py_join l2).
Proof.
  induction l1 as [|c l1 IH]; [done|].
  cbn [app]. rewrite !py_join_cons, IH. by rewrite string_append_assoc.
Qed.

Lemma par_text_app st al (rs rs' : list Run) :
  par_text (mkParagraph st al (rs ++ rs')) =
  String.append (py_join (run_text <$> rs)) (py_join (run_text <$> rs')).
Proof. unfold par_text. cbn [par_runs]. by rewrite fmap_app, py_join_app. Qed.

(** The loops on a paragraph [p] of a document [d]. *)
Lemma rainbow_loop_at (d : Document) (p : nat) (par : Paragraph) (s : string) :
  d !! p = Some par ->
  rainbow_loop p s d =
  Some (tt, <[p := mkParagraph (par_style par) (par_alignment par)
                     (par_runs par ++ rainbow_runs s)]> d).
Proof.
  intros Hp. pose proof (lookup_lt_Some _ _ _ Hp) as Hlt.
  rewrite (insert_paragraph_id d p par Hp) at 1.
  unfold rainbow_loop. apply for_each_appends_at. intros. by apply rainbow_body_at.
Qed.

Lemma complex_loop_at (d : Document) (p : nat) (par : Paragraph) items :
  d !! p = Some par ->
  for_each items (complex_body p) d =
  Some (tt, <[p := mkParagraph (par_style par) (par_alignment par)
                     (par_runs par ++ (complex_run <$> items))]> d).
Proof.
  intros Hp. pose proof (lookup_lt_Some _ _ _ Hp) as Hlt.
  rewrite (insert_paragraph_id d p par Hp) at 1.
  apply for_each_appends_at. intros. by apply complex_body_at.
Qed.

Lemma special_loop_at (d : Document) (p : nat) (par : Paragraph) items :
  d !! p = Some par ->
  for_each items (special_body p) d =
  Some (tt, <[p := mkParagraph (par_style par) (par_alignment par)
                     (par_runs par ++ (special_run <$> items))]> d).
Proof.
  intros Hp. pose proof (lookup_lt_Some _ _ _ Hp) as Hlt.
  rewrite (insert_paragraph_id d p par Hp) at 1.
  apply for_each_appends_at. intros. by apply special_body_at.
Qed.

(** The character section on any text. *)
Lemma para2_section_on_appends (s : string) (d : Document) :
  para2_section_on s d =
  Some (tt, d ++ [mkParagraph Normal (Some LEFT) (rainbow_runs s)]).
Proof.
  unfold para2_section_on. statements. by rewrite rainbow_loop_last.
Qed.

Lemma para2_section_on_block (s : string) :
  section_block (para2_section_on s) =
  Some (mkParagraph Normal (Some LEFT) (rainbow_runs s)).
Proof. unfold section_block. by rewrite para2_section_on_appends. Qed.

(** Every text the script passes to [add_heading] and [add_run] is
    stored as it is given. *)
Lemma script_texts_stored_verbatim :
  stored_verbatim text = true /\
  forallb (fun item => stored_verbatim item.1.1.1) complex_texts = true /\
  forallb (fun item => stored_verbatim item.1) special_chars = true /\
  exists doc,
    build_document = Some doc /\
    Forall (fun r => stored_verbatim (run_text r) = true) (all_runs doc).
Proof.
  do 3 (split; [reflexivity|]).
  eexists. split; [vm_compute; reflexivity|]. compute_done.
Qed.

(** A carriage return and a NUL character are not stored as given. *)
Lemma control_characters_not_verbatim :
  stored_verbatim (String "013" EmptyString) = false /\
  stored_verbatim (String "000" EmptyString) = false /\
  stored_verbatim (String "010" EmptyString) = false.
Proof. by repeat split. Qed.

(** ** The character loop *)

(** The loop on a paragraph of any document, on a text python-docx
    stores as given, appends the text to that paragraph, one run per
    character, and touches nothing else. *)
Theorem rainbow_loop_frame (d : Document) (p : nat) (par : Paragraph) (s : string) :
  stored_verbatim s = true ->
  d !! p = Some par ->
  exists par',
    rainbow_loop p s d = Some (tt, <[p := par']> d) /\
    par_style par' = par_style par /\
    par_alignment par' = par_alignment par /\
    take (length (par_runs par)) (par_runs par') = par_runs par /\
    length (par_runs par') = (length (par_runs par) + length (py_chars s))%nat /\
    par_text par' = String.append (par_text par) s /\
    forall q, q <> p -> <[p := par']> d !! q = d !! q.
Proof.
  intros _ Hp. eexists. split; [by apply rainbow_loop_at|].
  cbn [par_style par_alignment par_runs].
  split; [done|]. split; [done|].
  split; [by rewrite take_app_length|].
  split; [by rewrite length_app, rainbow_runs_length|].
  split; [by rewrite par_text_app, rainbow_runs_join|].
  intros q Hq. by apply list_lookup_insert_ne.
Qed.

(** The frame theorem on the second of three paragraphs. *)
Lemma rainbow_loop_frame_witness :
  let d := [mkParagraph Title None [plain_run "a"];
            mkParagraph Normal (Some RIGHT) [plain_run "b"];
            mkParagraph Normal None []] in
  exists par',
    rainbow_loop 1 "cd" d = Some (tt, <[1%nat := par']> d) /\
    par_style par' = Normal /\
    par_alignment par' = Some RIGHT /\
    take 1 (par_runs par') = [plain_run "b"] /\
    length (par_runs par') = 3%nat /\
    par_text par' = "bcd" /\
    forall q, q <> 1%nat -> <[1%nat := par']> d !! q = d !! q.
Proof.
  intros d.
  exact (rainbow_loop_frame d 1 (mkParagraph Normal (Some RIGHT) [plain_run "b"]) "cd"
           eq_refl eq_refl).
Defined.



(** In the paragraph of any text, a run has a color exactly when it is
    not the last run. *)
Theorem rainbow_colored_iff_not_last (s : string) (p : Paragraph) (i : nat) (r : Run) :
  section_block (para2_section_on s) = Some p ->
  par_runs p !! i = Some r ->
  is_Some (run_color r) <-> (i + 1 < length (par_runs p))%nat.
Proof.
  rewrite para2_section_on_block. intros [= <-]. cbn [par_runs]. intros Hr.
  pose proof (lookup_lt_Some _ _ _ Hr) as Hi. rewrite rainbow_runs_length in *.
  destruct (decide (i + 1 < length (py_chars s))%nat) as [Hlt|Hge].
  - pose proof (rainbow_runs_color s i Hlt) as Hcol. rewrite Hr in Hcol.
    cbn in Hcol. injection Hcol as ->. split; [done|]. intros _. apply colors_lookup.
  - pose proof (rainbow_runs_last s i ltac:(lia)) as Hcol. rewrite Hr in Hcol.
    cbn in Hcol. injection Hcol as ->. split; [by intros [? ?]|lia].
Qed.

(** The iff theorem on the first of two characters. *)
Lemma rainbow_colored_iff_not_last_witness :
  is_Some (run_color (mkRun "a" (with_color (RGB 0xFF 0x00 0x00) no_font))) <->
  (0 + 1 < 2)%nat.
Proof.
  exact (rainbow_colored_iff_not_last "ab"
           (mkParagraph Normal (Some LEFT)
              [mkRun "a" (with_color (RGB 0xFF 0x00 0x00) no_font); plain_run "b"])
           0 _ eq_refl eq_refl).
Defined.

(** The palette is cyclic: a colored character seven places after
    another one has the same color. *)
Theorem rainbow_colors_cycle (s : string) (p : Paragraph) (i : nat) :
  section_block (para2_section_on s) = Some p ->
  (i + length colors + 1 < length (par_runs p))%nat ->
  run_color <$> par_runs p !! (i + length colors)%nat = run_color <$> par_runs p !! i /\
  exists c, run_color <$> par_runs p !! i = Some (Some c) /\ c ∈ colors.
Proof.
  rewrite para2_section_on_block. intros [= <-]. cbn [par_runs].
  rewrite rainbow_runs_length. intros Hi.
  rewrite (rainbow_runs_color s (i + length colors)) by lia.
  rewrite (rainbow_runs_color s i) by lia.
  split.
  - do 2 f_equal. replace (i + length colors)%nat with (i + 1 * length colors)%nat by lia.
    by rewrite Nat.Div0.mod_add.
  - destruct (colors_lookup i) as [c Hc]. exists c. rewrite Hc. split; [done|].
    by eapply list_elem_of_lookup_2.
Qed.

(** The cycle theorem on a text of ten characters: the eighth is red
    as the first. *)
Lemma rainbow_colors_cycle_witness :
  exists p,
    section_block (para2_section_on "abcdefghij") = Some p /\
    run_color <$> par_runs p !! 7%nat = Some (Some (RGB 0xFF 0x00 0x00)) /\
    run_color <$> par_runs p !! 7%nat = run_color <$> par_runs p !! 0%nat.
Proof.
  eexists. split; [vm_compute; reflexivity|]. split; [reflexivity|].
  refine (proj1 (rainbow_colors_cycle "abcdefghij" _ 0 _ _)).
  - vm_compute. reflexivity.
  - vm_compute. lia.
Defined.

(** The loop assigns nothing but colors of the palette: the section,
    on any text python-docx stores as given, makes a left-aligned
    paragraph of no heading style whose text is that text, one run per
    character; on every run the color is a palette entry or
    unassigned, and boldness, italics, underline and size are
    unassigned. *)
Theorem rainbow_runs_only_palette (s : string) :
  stored_verbatim s = true ->
  exists p,
    section_block (para2_section_on s) = Some p /\
    par_style p = Normal /\
    par_alignment p = Some LEFT /\
    par_text p = s /\
    run_text <$> par_runs p = py_chars s /\
    Forall (fun r =>
              (run_color r = None \/ exists c, run_color r = Some c /\ c ∈ colors) /\
              run_bold r = None /\ run_italic r = None /\
              run_underline r = None /\ run_size r = None)
           (par_runs p).
Proof.
  intros _. eexists. split; [apply para2_section_on_block|].
  split; [reflexivity|]. split; [reflexivity|].
  split; [unfold par_text; cbn [par_runs]; apply rainbow_runs_join|].
  split; [apply rainbow_runs_text|].
  cbn [par_runs]. apply Forall_lookup. intros i r Hr.
  pose proof (lookup_lt_Some _ _ _ Hr) as Hi. rewrite rainbow_runs_length in Hi.
  destruct (lookup_lt_is_Some_2 (py_chars s) i Hi) as [c Hc].
  rewrite (rainbow_runs_lookup s i c Hc) in Hr. injection Hr as <-.
  split; [|done]. unfold run_color, rainbow_color. cbn.
  destruct (Z.of_nat i <? Z.of_nat (length (py_chars s)) - 1)%Z; [|by left].
  destruct (colors_lookup i) as [col Hcol]. right. exists col. split; [done|].
  by eapply list_elem_of_lookup_2.
Qed.

(** The palette theorem on a text of three characters of one, two and
    three bytes. *)
Lemma rainbow_runs_only_palette_witness :
  exists p,
    section_block (para2_section_on "aé彩") = Some p /\
    par_alignment p = Some LEFT /\
    par_text p = "aé彩" /\
    run_text <$> par_runs p = ["a"; "é"; "彩"].
Proof.
  destruct (rainbow_runs_only_palette "aé彩" eq_refl)
    as (p & Hp & _ & Hal & Htext & Hruns & _).
  exists p. split; [exact Hp|]. split; [exact Hal|]. split; [exact Htext|].
  exact Hruns.
Defined.

(** ** The loops over a table *)

(** The mixed-format loop, on a paragraph of any document and on any
    table whose texts python-docx stores as given, appends one run per
    row, in order, with the text of the row
    and with color, boldness and italics assigned to the values of the
    row, a false value being assigned as false; underline and size are
    left unassigned and nothing else is touched. *)
Theorem complex_loop_assigns (d : Document) (p : nat) (par : Paragraph)
    (items : list (string * RGBColor * bool * bool)) :
  forallb (fun item => stored_verbatim item.1.1.1) items = true ->
  d !! p = Some par ->
  exists rs,
    for_each items (complex_body p) d =
      Some (tt, <[p := mkParagraph (par_style par) (par_alignment par)
                         (par_runs par ++ rs)]> d) /\
    Forall2 (fun r item =>
               run_text r = item.1.1.1 /\ run_color r = Some item.1.1.2 /\
               run_bold r = Some item.1.2 /\ run_italic r = Some item.2 /\
               run_underline r = None /\ run_size r = None)
            rs items.
Proof.
  intros _ Hp. exists (complex_run <$> items). split; [by apply complex_loop_at|].
  apply Forall2_fmap_l, Forall_Forall2_diag, Forall_forall.
  by intros [[[t c] b] i] _.
Qed.

(** The mixed-format theorem on a table of two rows. *)
Lemma complex_loop_assigns_witness :
  exists rs,
    for_each [("x", RGB 1 2 3, false, true); ("y", RGB 4 5 6, true, false)]
             (complex_body 0) [mkParagraph Normal None [plain_run "w"]] =
      Some (tt, [mkParagraph Normal None (plain_run "w" :: rs)]) /\
    run_bold <$> rs = [Some false; Some true] /\
    run_italic <$> rs = [Some true; Some false].
Proof.
  destruct (complex_loop_assigns [mkParagraph Normal None [plain_run "w"]] 0
              (mkParagraph Normal None [plain_run "w"])
              [("x", RGB 1 2 3, false, true); ("y", RGB 4 5 6, true, false)]
              eq_refl eq_refl)
    as (rs & Hrun & Hrs).
  exists rs. split; [exact Hrun|].
  inversion Hrs as [|r1 ? rs1 ? H1 Hrs1]; subst.
  inversion Hrs1 as [|r2 ? rs2 ? H2 Hrs2]; subst.
  inversion Hrs2; subst.
  destruct H1 as (_ & _ & Hb1 & Hi1 & _), H2 as (_ & _ & Hb2 & Hi2 & _).
  cbn in *. by rewrite Hb1, Hi1, Hb2, Hi2.
Defined.

(** The special-character loop, on a paragraph of any document and on
    any table whose texts python-docx stores as given, appends one run
    per row, in order, with the text and the
    color of the row and no other attribute, and touches nothing
    else. *)
Theorem special_loop_assigns (d : Document) (p : nat) (par : Paragraph)
    (items : list (string * RGBColor)) :
  forallb (fun item => stored_verbatim item.1) items = true ->
  d !! p = Some par ->
  exists rs,
    for_each items (special_body p) d =
      Some (tt, <[p := mkParagraph (par_style par) (par_alignment par)
                         (par_runs par ++ rs)]> d) /\
    Forall2 (fun r item =>
               run_text r = item.1 /\ run_color r = Some item.2 /\
               run_bold r = None /\ run_italic r = None /\
               run_underline r = None /\ run_size r = None)
            rs items.
Proof.
  intros _ Hp. exists (special_run <$> items). split; [by apply special_loop_at|].
  apply Forall2_fmap_l, Forall_Forall2_diag, Forall_forall.
  by intros [t c] _.
Qed.

(** The special-character theorem on a table of one row. *)
Lemma special_loop_assigns_witness :
  exists rs,
    for_each [("@", RGB 0xFF 0x00 0xFF)] (special_body 0)
             [mkParagraph Normal (Some LEFT) []] =
      Some (tt, [mkParagraph Normal (Some LEFT) rs]) /\
    run_color <$> rs = [Some (RGB 0xFF 0x00 0xFF)].
Proof.
  destruct (special_loop_assigns [mkParagraph Normal (Some LEFT) []] 0
              (mkParagraph Normal (Some LEFT) []) [("@", RGB 0xFF 0x00 0xFF)]
              eq_refl eq_refl)
    as (rs & Hrun & Hrs).
  exists rs. split; [exact Hrun|].
  inversion Hrs as [|r1 ? rs1 ? H1 Hrs1]; subst. inversion Hrs1; subst.
  destruct H1 as (_ & Hc1 & _). cbn in *. by rewrite Hc1.
Defined.

(** ** Sections and headings *)

(** No section reads what another leaves: any sequence of sections of
    the file, in any order and with repetitions, run on any document,
    succeeds and appends the blocks of these sections in that order. *)
Theorem sections_independent (l : list (Script unit)) :
  l ⊆ sections ->
  exists bs,
    Forall2 (fun s b => section_block s = Some b) l bs /\
    forall d, for_each l (fun s => s) d = Some (tt, d ++ bs).
Proof.
  intros Hl. apply for_each_sections. intros s Hs d.
  apply section_appends. by apply Hl.
Qed.

(** The independence theorem on the last section, the first, and the
    last again. *)
Lemma sections_independent_witness :
  exists bs,
    par_text <$> bs = ["特殊字符：@#$%&*"; "复杂格式测试文档"; "特殊字符：@#$%&*"] /\
    forall d, for_each [para8_section; title_section; para8_section] (fun s => s) d =
              Some (tt, d ++ bs).
Proof.
  destruct (sections_independent [para8_section; title_section; para8_section])
    as (bs & Hbs & Hrun).
  { intros s Hs. rewrite !elem_of_cons, elem_of_nil in Hs.
    destruct Hs as [->|[->|[->|[]]]]; in_sections. }
  exists bs. split; [|exact Hrun].
  inversion Hbs as [|? b1 ? bs1 H1 Hbs1]; subst.
  inversion Hbs1 as [|? b2 ? bs2 H2 Hbs2]; subst.
  inversion Hbs2 as [|? b3 ? bs3 H3 Hbs3]; subst.
  inversion Hbs3; subst.
  vm_compute in H1, H2, H3.
  injection H1 as <-. injection H2 as <-. injection H3 as <-. reflexivity.
Defined.

(** The title and the subtitle sections are the four heading
    statements on their text, level and color.  For a level in 0..9
    and a text python-docx stores as given, these statements raise when
    the text is empty, the heading then having no run for [runs[0]];
    otherwise they append one centered heading of one run with the
    text, the color, and no other attribute. *)
Theorem heading_section_cases (txt : string) (level : Z) (color : RGBColor)
    (d : Document) :
  (0 <= level <= 9)%Z ->
  stored_verbatim txt = true ->
  title_section = heading_section "复杂格式测试文档" 0 (RGB 0x1a 0x1a 0x1a) /\
  subtitle_section = heading_section "格式保留测试" 1 (RGB 0xFF 0x00 0x00) /\
  heading_section txt level color d =
    if decide (txt = EmptyString) then None
    else Some (tt, d ++ [mkParagraph (if (level =? 0)%Z then Title else Heading level)
                           (Some CENTER) [mkRun txt (with_color color no_font)]]).
Proof.
  intros Hl _. split; [reflexivity|]. split; [reflexivity|].
  unfold heading_section.
  rewrite (bind_eq _ _ _ _ _ (add_heading_eq txt level d Hl)). cbn beta.
  rewrite (bind_eq _ _ _ _ _ (set_alignment_last _ _ _)). cbn beta.
  destruct (decide (txt = EmptyString)) as [->|Ht].
  - unfold bind, runs_item. by rewrite list_lookup_middle.
  - cbn [with_alignment par_style par_alignment par_runs].
    erewrite bind_eq by (apply runs_item_last; cbn; lia). cbn beta.
    unfold set_color_rgb. by rewrite set_font_last by (cbn; lia).
Qed.

(** The heading theorem on an empty text and on a level-2 heading. *)
Lemma heading_section_cases_witness :
  heading_section EmptyString 1 (RGB 0xFF 0x00 0x00) [] = None /\
  heading_section "abc" 2 (RGB 0x00 0x00 0xFF) [] =
    Some (tt, [mkParagraph (Heading 2) (Some CENTER)
                 [mkRun "abc" (with_color (RGB 0x00 0x00 0xFF) no_font)]]).
Proof.
  split.
  - refine (proj2 (proj2 (heading_section_cases EmptyString 1 (RGB 0xFF 0x00 0x00) []
                            _ eq_refl))). lia.
  - refine (proj2 (proj2 (heading_section_cases "abc" 2 (RGB 0x00 0x00 0xFF) []
                            _ eq_refl))). lia.
Defined.

(** ** The output of the file *)

(** The file saves the assembled document under
    [complex_reference.docx] and prints three lines, the second with
    the number of paragraphs, 10, the two headings counted; started on
    a document that already has paragraphs, it saves that document with
    the ten blocks appended and prints the count of all of them. *)
Theorem main_output :
  exists doc,
    build_document = Some doc /\
    main = Some (mkOutput "complex_reference.docx" doc
                   ["✅ 已生成复杂模板: complex_reference.docx";
                    "📄 包含 10 个段落";
                    "🎨 包含多种颜色格式：红色、蓝色、绿色、紫色、橙色、黄色等"]) /\
    length (filter (fun p => par_style p = Normal) doc) = 8%nat /\
    forall d, exists out,
      main_from d = Some out /\
      saved_path out = output_path /\
      saved_document out = d ++ doc /\
      printed out !! 1%nat =
        Some (String.append "📄 包含 "
                (String.append (py_str (length d + 10)) " 个段落")).
Proof.
  destruct script_appends as (bs & Hbs & Hrun).
  exists bs. pose proof (build_document_from_sections bs Hbs) as Hdoc.
  split; [exact Hdoc|].
  assert (bs = default [] build_document) as Hbs' by (by rewrite Hdoc).
  split.
  { unfold main, main_from. rewrite Hrun. cbn [app Document_new].
    rewrite Hbs'. vm_compute. reflexivity. }
  split; [rewrite Hbs'; vm_compute; reflexivity|].
  intros d. unfold main_from. rewrite Hrun. eexists. split; [reflexivity|].
  cbn [saved_path saved_document printed summary].
  split; [reflexivity|]. split; [reflexivity|].
  unfold summary. cbn [lookup list_lookup]. rewrite length_app.
  replace (length bs) with 10%nat by (rewrite Hbs'; vm_compute; reflexivity).
  reflexivity.
Qed.

